(** * StepState: one step of a handler-driven finite state machine

    A shallow embedding of [src/steps.js]: the stepper built by
    [module.exports] (here [makeStepper], with its inner functions [archive]
    and [step]) and the record constructor [module.exports.State] (here
    [State]).

    JavaScript objects are mutable and compared by reference, and the engine
    mutates the record it is given, so the record lives in a store ([heap])
    and is passed around as a reference ([VRef]).  Handlers are JavaScript
    functions: they are modelled as functions from the store and the argument
    list to a new store and an outcome (a returned value or a thrown one).
    [await] is modelled by its result: the value a promise resolves to is a
    [Return], a rejection is a [Throw], exactly as a synchronous return or
    throw; what else runs while the step is suspended counts as part of the
    handler's effect on the store.  [Date.now()] is an input, [now]. *)

From Stdlib Require Import ZArith String List.
From stdpp Require Import base gmap strings list fin_maps pretty.

Local Open Scope string_scope.

(** ** Values and the store *)

Definition loc := positive.

(** Numbers are the integral ones (timestamps are the only numbers the engine
    produces).  An error raised by [assert] or by the runtime is a value of
    its own: the engine never reads or compares such an object. *)
Inductive value : Type :=
| VUndef
| VNull
| VBool (b : bool)
| VNum (n : Z)
| VStr (s : string)
| VRef (l : loc)
| VAssertionError (msg : string)
| VTypeError.

Global Instance value_eq_dec : EqDecision value.
Proof. solve_decision. Defined.

(** An object is its named properties (data properties, without methods of
    their own); an array has, besides, its elements. *)
Record object : Type := Obj {
  props : gmap string value;
  elems : option (list value)
}.

Abbreviation heap := (gmap loc object).

Inductive result : Type :=
| Return (v : value)
| Throw (e : value).

Definition handler : Type := heap → list value → heap * result.

(** What [handlers[k]] evaluates to: a function, or some other value (calling
    it is a runtime type error).  The table maps a key to what the property
    access yields, absent keys to [undefined]; the handlers are run on the
    store and have no access to the table. *)
Inductive entry : Type :=
| EFun (f : handler)
| EVal (v : value).

Abbreviation table := (gmap string entry).

Definition fresh_loc (h : heap) : loc := fresh (dom h).

(** ** JavaScript primitives used by the engine *)

(** [if (v)], [assert(v)] *)
Definition truthy (v : value) : bool :=
  match v with
  | VUndef | VNull => false
  | VBool b => b
  | VNum n => negb (Z.eqb n 0)
  | VStr s => negb (String.eqb s "")
  | VRef _ | VAssertionError _ | VTypeError => true
  end.

(** [v == null] *)
Definition nullish (v : value) : bool :=
  match v with
  | VUndef | VNull => true
  | _ => false
  end.

(** [typeof v === 'string'] *)
Definition is_string (v : value) : bool :=
  match v with
  | VStr _ => true
  | _ => false
  end.

(** [a === b] *)
Definition strict_eq (a b : value) : bool := bool_decide (a = b).

(** [v.k]: a missing property, and any property of a primitive, reads as
    [undefined] (none of the four keys the engine reads is provided by a
    built-in prototype). *)
Definition get_prop (h : heap) (v : value) (k : string) : value :=
  match v with
  | VRef l =>
      match h !! l with
      | Some o => default VUndef (props o !! k)
      | None => VUndef
      end
  | _ => VUndef
  end.

(** [v.k = x]: the module is not in strict mode, so an assignment to a
    property of a primitive is silently dropped. *)
Definition set_prop (h : heap) (v : value) (k : string) (x : value) : heap :=
  match v with
  | VRef l =>
      match h !! l with
      | Some o => <[l := Obj (<[k := x]> (props o)) (elems o)]> h
      | None => h
      end
  | _ => h
  end.

Definition assert (v : bool) (msg : string) : option value :=
  if v then None else Some (VAssertionError msg).

Section Engine.

(** The string an object converts to (its [toString], which user code may
    override); every statement below holds whatever it is. *)
Variable object_to_string : heap → value → string.

(** Conversion to a string, as done by a computed property key
    [handlers[v]] and by ['...' + v]. *)
Definition to_string (h : heap) (v : value) : string :=
  match v with
  | VUndef => "undefined"
  | VNull => "null"
  | VBool true => "true"
  | VBool false => "false"
  | VNum n => pretty n
  | VStr s => s
  | VRef _ | VAssertionError _ | VTypeError => object_to_string h v
  end.

(** [handlers[k]] as a condition *)
Definition registered (handlers : table) (k : string) : bool :=
  match handlers !! k with
  | Some (EFun _) => true
  | Some (EVal v) => truthy v
  | None => false
  end.

(** [handlers[k](...args)] *)
Definition call (handlers : table) (k : string) (h : heap) (args : list value)
  : heap * result :=
  match handlers !! k with
  | Some (EFun f) => f h args
  | _ => (h, Throw VTypeError)
  end.

(** ** The engine *)

(** [e => { throw e }] *)
Definition default_catch : handler :=
  fun h args => (h, Throw (nth 0 args VUndef)).

(** [if(handlers.catch == null) handlers.catch = e => { throw e}] *)
Definition install_catch (handlers : table) : table :=
  match handlers !! "catch" with
  | None | Some (EVal VUndef) | Some (EVal VNull) =>
      <["catch" := EFun default_catch]> handlers
  | _ => handlers
  end.

Definition snapshot (st upd : value) : object :=
  Obj {[ "state" := st; "updated" := upd ]} None.

(** [state.history.unshift(x)] where [x] is the snapshot
    [{state:state.state, updated:state.updated}].  When [state.history] is
    not an array the call is a runtime type error. *)
Definition unshift_snapshot (h : heap) (state : value) : heap * result :=
  match get_prop h state "history" with
  | VRef a =>
      match h !! a with
      | Some (Obj p (Some es)) =>
          let s := fresh_loc h in
          let x := snapshot (get_prop h state "state") (get_prop h state "updated") in
          (<[a := Obj p (Some (VRef s :: es))]> (<[s := x]> h), Return VUndef)
      | _ => (h, Throw VTypeError)
      end
  | _ => (h, Throw VTypeError)
  end.

Definition archive (h : heap) (state : value) : heap * result :=
  let h1 :=
    if nullish (get_prop h state "history") then
      let a := fresh_loc h in
      set_prop (<[a := Obj ∅ (Some [])]> h) state "history" (VRef a)
    else h in
  match unshift_snapshot h1 state with
  | (h2, Throw e) => (h2, Throw e)
  | (h2, Return _) => (h2, Return state)
  end.

(** The body of the [try] block. *)
Definition attempt (handlers : table) (now : Z) (h : heap) (state : value)
    (args : list value) : heap * result :=
  match archive h state with
  | (h1, Throw e) => (h1, Throw e)
  | (h1, Return state) =>
      let h2 := set_prop h1 state "updated" (VNum now) in
      call handlers (to_string h2 (get_prop h2 state "state")) h2 (state :: args)
  end.

(** [try { ... } catch(e) { transition = await handlers.catch(e,state,...args) }] *)
Definition try_catch (handlers : table) (now : Z) (h : heap) (state : value)
    (args : list value) : heap * result :=
  match attempt handlers now h state args with
  | (h1, Throw e) => call handlers "catch" h1 (e :: state :: args)
  | (h1, Return t) => (h1, Return t)
  end.

Definition bad_return : string :=
  "State handlers must return either a string state transition or nothing".

(** What follows the [try] statement: the transition result is interpreted. *)
Definition settle (state : value) (r : heap * result) : heap * result :=
  match r with
  | (h, Throw e) => (h, Throw e)
  | (h, Return transition) =>
      if strict_eq transition state then (h, Return state)
      else if truthy transition then
        match assert (is_string transition) bad_return with
        | Some e => (h, Throw e)
        | None => (set_prop h state "state" transition, Return state)
        end
      else (h, Return state)
  end.

Definition step (handlers : table) (now : Z) (h : heap) (state : value)
    (args : list value) : heap * result :=
  match assert (truthy state) "Handling state requires a state object" with
  | Some e => (h, Throw e)
  | None =>
      if truthy (get_prop h state "done") then (h, Return state)
      else
        let name := get_prop h state "state" in
        match assert (registered handlers (to_string h name))
                ("Invalid state trasition: " +:+ to_string h name) with
        | Some e => (h, Throw e)
        | None => settle state (try_catch handlers now h state args)
        end
  end.

(** [module.exports = (handlers) => { ...; return step }]; [None] is a missing
    (falsy) argument. *)
Definition makeStepper (handlers : option table)
  : value + (Z → heap → value → list value → heap * result) :=
  match handlers with
  | None => inl (VAssertionError "Requires handlers object")
  | Some t => inr (step (install_catch t))
  end.

(** ** The record constructor *)

(** The properties [{...v}] copies: the own enumerable properties of [v]
    (for an array and for a string, also the indices). *)
Definition index_props (es : list value) : gmap string value :=
  list_to_map (imap (λ (i : nat) x, (pretty i, x)) es).

Definition chars (s : string) : list value :=
  (λ c, VStr (String c EmptyString)) <$> list_ascii_of_string s.

Definition spread (h : heap) (v : value) : gmap string value :=
  match v with
  | VRef l =>
      match h !! l with
      | Some (Obj p (Some es)) => p ∪ index_props es
      | Some (Obj p None) => p
      | None => ∅
      end
  | VStr s => index_props (chars s)
  | _ => ∅
  end.

Definition defaults (history : value) (now : Z) : gmap string value :=
  {[ "state" := VStr "Start"; "done" := VBool false;
     "history" := history; "updated" := VNum now ]}.

(** [module.exports.State = function (state={}) { return {..., ...state} }] *)
Definition State (now : Z) (h : heap) (state : value) : heap * value :=
  let fields := match state with VUndef => ∅ | _ => spread h state end in
  let r := fresh_loc h in
  let h1 := <[r := Obj ∅ None]> h in
  let a := fresh_loc h1 in
  let h2 := <[a := Obj ∅ (Some [])]> h1 in
  (<[r := Obj (fields ∪ defaults (VRef a) now) None]> h2, VRef r).

(** ** Reading a record's history *)

Definition deref (h : heap) (v : value) : option object :=
  match v with
  | VRef l => h !! l
  | _ => None
  end.

(** The elements of [state.history], when it is an array. *)
Definition history (h : heap) (state : value) : option (list value) :=
  match deref h (get_prop h state "history") with
  | Some o => elems o
  | None => None
  end.

(** [state.history[0]], as the object it is. *)
Definition history_head (h : heap) (state : value) : option object :=
  match history h state with
  | Some (x :: _) => deref h x
  | _ => None
  end.

(** [state.history.length] *)
Definition history_length (h : heap) (state : value) : option nat :=
  length <$> history h state.

(** The record schema: [history] is missing or is an array. *)
Definition history_ok (h : heap) (state : value) : bool :=
  nullish (get_prop h state "history") || bool_decide (is_Some (history h state)).

(** The handlers run between [h0] and [h1] left the first entry of the
    history and its length as they were. *)
Definition keeps_history (state : value) (h0 h1 : heap) : Prop :=
  history_head h1 state = history_head h0 state ∧
  history_length h1 state = history_length h0 state.

(** The store in which the state handler is invoked: archived and stamped. *)
Definition stamped (now : Z) (h : heap) (state : value) : heap :=
  set_prop (archive h state).1 state "updated" (VNum now).

(** ** Sample handlers and records *)

(** Objects that convert to a string the way plain objects do. *)
Definition plain_to_string : heap → value → string := λ _ _, "[object Object]".

(** [Steps.State()] at time 100, in an empty store. *)
Definition fresh_store : heap := (State 100 ∅ VUndef).1.
Definition fresh_record : value := (State 100 ∅ VUndef).2.

(** [() => v] *)
Definition returns (v : value) : handler := λ h _, (h, Return v).

(** [() => { throw new Error(msg) }] *)
Definition throws_error (msg : string) : handler :=
  λ h _, let e := fresh_loc h in
         (<[e := Obj {[ "message" := VStr msg ]} None]> h, Throw (VRef e)).

(** [data => { data.done = true }] *)
Definition finish : handler :=
  λ h args, (set_prop h (nth 0 args VUndef) "done" (VBool true), Return VUndef).

(** [data => { data.history = [] }] *)
Definition clear_history : handler :=
  λ h args, let a := fresh_loc h in
            (set_prop (<[a := Obj ∅ (Some [])]> h) (nth 0 args VUndef) "history" (VRef a),
             Return VUndef).

(** The handlers of the repository's test. *)
Definition test_steps : table :=
  {[ "Start" := EFun (returns (VStr "Middle"));
     "Middle" := EFun (returns (VStr "Error"));
     "Error" := EFun (throws_error "error");
     "End" := EFun finish;
     "catch" := EFun (returns (VStr "End")) ]}.

(** The same without a [catch] entry. *)
Definition uncaught_steps : table := delete "catch" test_steps.

(** [{ Start: data => { data.history = [] } }] *)
Definition clearing_steps : table := {[ "Start" := EFun clear_history ]}.

(** [{ Start: () => '' }] *)
Definition empty_string_steps : table := {[ "Start" := EFun (returns (VStr "")) ]}.

(** [{ Start: () => { throw new Error('error') }, catch: () => '' }] *)
Definition empty_catch_steps : table :=
  {[ "Start" := EFun (throws_error "error"); "catch" := EFun (returns (VStr "")) ]}.

(** [{ Start: () => 42 }] *)
Definition number_steps : table := {[ "Start" := EFun (returns (VNum 42)) ]}.

(** The store in which the [state] of the fresh record is [name]. *)
Definition record_in (name : string) : heap :=
  set_prop fresh_store fresh_record "state" (VStr name).

(** The fresh record, once finished. *)
Definition done_store : heap := set_prop fresh_store fresh_record "done" (VBool true).

(** The loop of the repository's test:
    [while(!state.done) state = await step(state)], at most [fuel] steps. *)
Fixpoint run (fuel : nat) (handlers : table) (now : Z) (h : heap) (state : value)
  : option (heap * result) :=
  if truthy (get_prop h state "done") then Some (h, Return state)
  else
    match fuel with
    | O => None
    | S fuel =>
        match step handlers now h state [] with
        | (h1, Return state) => run fuel handlers now h1 state
        | (h1, Throw e) => Some (h1, Throw e)
        end
    end.

(** The entries of [state.history] as the objects they are. *)
Definition history_objects (h : heap) (state : value) : option (list (option object)) :=
  match history h state with
  | Some es => Some (map (deref h) es)
  | None => None
  end.

(** Every entry of the history is a primitive or an object of the store,
    other than the record itself and the history array. *)
Definition entry_ok (h : heap) (state : value) (x : value) : bool :=
  negb (strict_eq x state)
  && negb (strict_eq x (get_prop h state "history"))
  && match x with
     | VRef l => bool_decide (is_Some (h !! l))
     | _ => true
     end.

Definition history_entries_ok (h : heap) (state : value) : bool :=
  forallb (entry_ok h state) (default [] (history h state)).

(** [{ state: 'Start', history: 5 }]: a record whose history is not an array. *)
Definition broken_store : heap := set_prop fresh_store fresh_record "history" (VNum 5).

(** [{ Start: 5, catch: () => 'End' }] *)
Definition not_a_function_steps : table :=
  {[ "Start" := EVal (VNum 5); "catch" := EFun (returns (VStr "End")) ]}.

(** [{ Start: () => { throw new Error('error') }, catch: false }] *)
Definition bad_catch_steps : table :=
  {[ "Start" := EFun (throws_error "error"); "catch" := EVal (VBool false) ]}.

(** A caller's object [{ id: 'tx1', history: [] }], at location 1, with its
    array at location 2. *)
Definition caller_store : heap :=
  {[ 1%positive := Obj {[ "id" := VStr "tx1"; "history" := VRef 2%positive ]} None;
     2%positive := Obj ∅ (Some []) ]}.

(** ** Properties of the store operations *)

Lemma fresh_loc_None (h : heap) : h !! fresh_loc h = None.
Proof. unfold fresh_loc. apply (not_elem_of_dom (D := gset loc)), is_fresh. Qed.

Lemma fresh_loc_ne (h : heap) l : is_Some (h !! l) → l ≠ fresh_loc h.
Proof. intros [o Ho] ->. rewrite fresh_loc_None in Ho. discriminate. Qed.

Lemma get_prop_object h l k :
  get_prop h (VRef l) k ≠ VUndef → is_Some (h !! l).
Proof. simpl. destruct (h !! l); [eauto | congruence]. Qed.

Lemma get_set_prop_eq h l k x :
  is_Some (h !! l) → get_prop (set_prop h (VRef l) k x) (VRef l) k = x.
Proof.
  intros [o Ho]. simpl. rewrite Ho. rewrite lookup_insert_eq. simpl.
  by rewrite lookup_insert_eq.
Qed.

Lemma get_set_prop_ne h v k k' x :
  k ≠ k' → get_prop (set_prop h v k x) v k' = get_prop h v k'.
Proof.
  intros Hk. destruct v; try done. simpl.
  destruct (h !! l) as [o|] eqn:Ho; [|by rewrite Ho].
  rewrite lookup_insert_eq. simpl. by rewrite lookup_insert_ne.
Qed.

Lemma set_prop_is_Some h v k x l :
  is_Some (h !! l) → is_Some (set_prop h v k x !! l).
Proof.
  intros Hl. destruct v; try done. simpl.
  destruct (h !! l0) as [o|] eqn:Ho; [|done].
  destruct (decide (l0 = l)) as [->|Hne].
  - rewrite lookup_insert_eq. eauto.
  - by rewrite lookup_insert_ne.
Qed.

Lemma set_prop_elems h v k x l :
  elems <$> set_prop h v k x !! l = elems <$> h !! l.
Proof.
  destruct v; try done. simpl.
  destruct (h !! l0) as [o|] eqn:Ho; [|done].
  destruct (decide (l0 = l)) as [->|Hne].
  - rewrite lookup_insert_eq, Ho. done.
  - by rewrite lookup_insert_ne.
Qed.

Lemma set_prop_lookup_ne h l k x l' :
  l ≠ l' → set_prop h (VRef l) k x !! l' = h !! l'.
Proof.
  intros Hne. simpl. destruct (h !! l) as [o|] eqn:Ho; [|done].
  by rewrite lookup_insert_ne.
Qed.

Lemma get_prop_insert_ne (h : heap) l l' o k :
  l ≠ l' → get_prop (<[l' := o]> h) (VRef l) k = get_prop h (VRef l) k.
Proof. intros Hne. simpl. by rewrite lookup_insert_ne. Qed.

Lemma history_None_nullish h state :
  nullish (get_prop h state "history") = true → history h state = None.
Proof. unfold history. by destruct (get_prop h state "history"). Qed.

(** ** The archive *)

Lemma unshift_snapshot_spec h l a p es :
  is_Some (h !! l) →
  get_prop h (VRef l) "history" = VRef a →
  h !! a = Some (Obj p (Some es)) →
  ∃ h1, unshift_snapshot h (VRef l) = (h1, Return VUndef) ∧
    (∀ k, get_prop h1 (VRef l) k = get_prop h (VRef l) k) ∧
    history_head h1 (VRef l)
      = Some (snapshot (get_prop h (VRef l) "state") (get_prop h (VRef l) "updated")) ∧
    history_length h1 (VRef l) = Some (S (length es)) ∧
    is_Some (h1 !! l).
Proof.
  intros Hl Hhist Ha.
  assert (Hsa : a ≠ fresh_loc h) by (apply fresh_loc_ne; eauto).
  assert (Hsl : l ≠ fresh_loc h) by (by apply fresh_loc_ne).
  eexists. split.
  { unfold unshift_snapshot. rewrite Hhist, Ha. reflexivity. }
  set (s := fresh_loc h) in *.
  set (x := snapshot _ _).
  assert (Hget : ∀ k, get_prop (<[a:=Obj p (Some (VRef s :: es))]> (<[s:=x]> h)) (VRef l) k
                      = get_prop h (VRef l) k).
  { intros k. destruct (decide (l = a)) as [->|Hne].
    - simpl. rewrite lookup_insert_eq, Ha. done.
    - rewrite !get_prop_insert_ne by done. done. }
  assert (Hh : history (<[a:=Obj p (Some (VRef s :: es))]> (<[s:=x]> h)) (VRef l)
               = Some (VRef s :: es)).
  { unfold history. rewrite Hget, Hhist. simpl. by rewrite lookup_insert_eq. }
  split; [exact Hget|]. split; [|split].
  - unfold history_head. rewrite Hh. simpl.
    rewrite lookup_insert_ne by done. by rewrite lookup_insert_eq.
  - unfold history_length. by rewrite Hh.
  - destruct (decide (a = l)) as [->|Hne].
    + rewrite lookup_insert_eq. eauto.
    + rewrite !lookup_insert_ne by done. done.
Qed.

Lemma archive_spec h l :
  is_Some (h !! l) →
  history_ok h (VRef l) = true →
  ∃ h1, archive h (VRef l) = (h1, Return (VRef l)) ∧
    (∀ k, k ≠ "history" → get_prop h1 (VRef l) k = get_prop h (VRef l) k) ∧
    history_head h1 (VRef l)
      = Some (snapshot (get_prop h (VRef l) "state") (get_prop h (VRef l) "updated")) ∧
    history_length h1 (VRef l) = Some (S (default 0 (history_length h (VRef l)))) ∧
    is_Some (h1 !! l).
Proof.
  intros Hl Hok. unfold archive.
  destruct (nullish (get_prop h (VRef l) "history")) eqn:Hnull.
  - (* [state.history = []] first *)
    set (a := fresh_loc h).
    assert (Hal : l ≠ a) by (by apply fresh_loc_ne).
    set (h0 := <[a := Obj ∅ (Some [])]> h).
    assert (Hl0 : is_Some (h0 !! l)) by (unfold h0; by rewrite lookup_insert_ne).
    destruct (unshift_snapshot_spec (set_prop h0 (VRef l) "history" (VRef a)) l a ∅ [])
      as (h1 & -> & Hget & Hhead & Hlen & Hl1).
    + by apply set_prop_is_Some.
    + by apply get_set_prop_eq.
    + rewrite set_prop_lookup_ne by done. apply lookup_insert_eq.
    + assert (Hsame : ∀ k, k ≠ "history" →
                get_prop (set_prop h0 (VRef l) "history" (VRef a)) (VRef l) k
                = get_prop h (VRef l) k).
      { intros k Hk. rewrite get_set_prop_ne by done.
        unfold h0. by rewrite get_prop_insert_ne. }
      exists h1. split; [done|]. split; [|split; [|split]].
      * intros k Hk. rewrite Hget. by apply Hsame.
      * rewrite Hhead, !Hsame by done. done.
      * rewrite Hlen. unfold history_length.
        by rewrite (history_None_nullish h (VRef l) Hnull).
      * done.
  - (* [state.history] is an array already *)
    unfold history_ok in Hok. rewrite Hnull in Hok. simpl in Hok.
    apply bool_decide_eq_true in Hok as [es Hes].
    unfold history in Hes.
    destruct (get_prop h (VRef l) "history") as [| | | | |a| |] eqn:Hhist;
      try discriminate.
    simpl in Hes. destruct (h !! a) as [[p oes]|] eqn:Ha; [|discriminate].
    simpl in Hes. subst oes.
    destruct (unshift_snapshot_spec h l a p es Hl Hhist Ha)
      as (h1 & -> & Hget & Hhead & Hlen & Hl1).
    exists h1. split; [done|]. split; [|split; [|split]]; try done.
    rewrite Hlen. unfold history_length, history. rewrite Hhist. simpl.
    by rewrite Ha.
Qed.

Lemma set_prop_history h l k x :
  k ≠ "history" →
  history (set_prop h (VRef l) k x) (VRef l) = history h (VRef l).
Proof.
  intros Hk. unfold history. rewrite get_set_prop_ne by done.
  destruct (get_prop h (VRef l) "history") as [| | | | |a| |]; try done.
  unfold deref.
  pose proof (set_prop_elems h (VRef l) k x a) as He.
  destruct (set_prop h (VRef l) k x !! a), (h !! a); simpl in He; congruence.
Qed.

Lemma set_prop_history_length h l k x :
  k ≠ "history" →
  history_length (set_prop h (VRef l) k x) (VRef l) = history_length h (VRef l).
Proof. intros Hk. unfold history_length. by rewrite set_prop_history. Qed.

(** An assignment to a property of the record leaves [history[0]] alone when
    that is an object without a [history] of its own (so not the record). *)
Lemma set_prop_history_head h l k x o :
  k ≠ "history" →
  props o !! "history" = None →
  history_head h (VRef l) = Some o →
  history_head (set_prop h (VRef l) k x) (VRef l) = Some o.
Proof.
  intros Hk Ho Hhead. unfold history_head in *.
  rewrite set_prop_history by done.
  destruct (history h (VRef l)) as [[|v es]|] eqn:Hh; try done.
  destruct v as [| | | | |s| |]; try done. unfold deref in *.
  destruct (decide (l = s)) as [->|Hne]; [|by rewrite set_prop_lookup_ne].
  unfold history in Hh. simpl in Hh. rewrite Hhead in Hh. rewrite Ho in Hh.
  discriminate.
Qed.

Lemma snapshot_no_history st upd : props (snapshot st upd) !! "history" = None.
Proof. unfold snapshot. simpl. by rewrite !lookup_insert_ne. Qed.

(** ** The step *)

(** The store handed to the handler holds the snapshot and the new stamp. *)
Lemma stamped_spec now h l :
  is_Some (h !! l) →
  history_ok h (VRef l) = true →
  archive h (VRef l) = ((archive h (VRef l)).1, Return (VRef l)) ∧
  history_head (stamped now h (VRef l)) (VRef l)
    = Some (snapshot (get_prop h (VRef l) "state") (get_prop h (VRef l) "updated")) ∧
  history_length (stamped now h (VRef l)) (VRef l)
    = Some (S (default 0 (history_length h (VRef l)))) ∧
  get_prop (stamped now h (VRef l)) (VRef l) "updated" = VNum now ∧
  get_prop (stamped now h (VRef l)) (VRef l) "state" = get_prop h (VRef l) "state" ∧
  is_Some (stamped now h (VRef l) !! l).
Proof.
  intros Hl Hok.
  destruct (archive_spec h l Hl Hok) as (h1 & Harch & Hget & Hhead & Hlen & Hl1).
  unfold stamped. rewrite Harch. cbn [fst]. split; [done|]. split; [|split; [|split; [|split]]].
  - apply set_prop_history_head; [done|apply snapshot_no_history|done].
  - by rewrite set_prop_history_length.
  - by apply get_set_prop_eq.
  - rewrite get_set_prop_ne by done. by apply Hget.
  - by apply set_prop_is_Some.
Qed.

(** With a history that is missing or an array, the [try] block gets to the
    handler, and invokes it on the archived and stamped store. *)
Lemma attempt_stamped handlers now h l args :
  is_Some (h !! l) →
  history_ok h (VRef l) = true →
  attempt handlers now h (VRef l) args
  = call handlers (to_string (stamped now h (VRef l))
                     (get_prop (stamped now h (VRef l)) (VRef l) "state"))
      (stamped now h (VRef l)) (VRef l :: args).
Proof.
  intros Hl Hok. destruct (stamped_spec now h l Hl Hok) as (Harch & _).
  unfold attempt. rewrite Harch. done.
Qed.

Lemma attempt_invokes handlers now h l name args :
  get_prop h (VRef l) "state" = VStr name →
  history_ok h (VRef l) = true →
  attempt handlers now h (VRef l) args
  = call handlers name (stamped now h (VRef l)) (VRef l :: args).
Proof.
  intros Hname Hok.
  assert (Hl : is_Some (h !! l)) by (apply (get_prop_object h l "state"); congruence).
  rewrite attempt_stamped by done.
  destruct (stamped_spec now h l Hl Hok) as (_ & _ & _ & _ & -> & _).
  by rewrite Hname.
Qed.

Lemma step_running handlers now h state args :
  truthy state = true →
  truthy (get_prop h state "done") = false →
  registered handlers (to_string h (get_prop h state "state")) = true →
  step handlers now h state args = settle state (try_catch handlers now h state args).
Proof.
  intros Hst Hdone Hreg. unfold step.
  rewrite Hst, Hdone, Hreg. done.
Qed.

Lemma registered_fun (handlers : table) k f :
  handlers !! k = Some (EFun f) → registered handlers k = true.
Proof. intros H. unfold registered. by rewrite H. Qed.

Lemma settle_string (h : heap) l s :
  s ≠ "" → is_Some (h !! l) →
  settle (VRef l) (h, Return (VStr s))
  = (set_prop h (VRef l) "state" (VStr s), Return (VRef l)) ∧
  get_prop (settle (VRef l) (h, Return (VStr s))).1 (VRef l) "state" = VStr s.
Proof.
  intros Hs Hl.
  assert (Heq : settle (VRef l) (h, Return (VStr s))
                = (set_prop h (VRef l) "state" (VStr s), Return (VRef l))).
  { unfold settle, strict_eq. rewrite bool_decide_eq_false_2 by done.
    cbn [truthy]. destruct (String.eqb_spec s ""); [done|]. done. }
  split; [done|]. rewrite Heq. cbn [fst]. by apply get_set_prop_eq.
Qed.

(** What is thrown by the handler goes to the catch handler, whose outcome is
    then interpreted. *)
Lemma step_caught handlers now h l name f args h1 e :
  truthy (get_prop h (VRef l) "done") = false →
  get_prop h (VRef l) "state" = VStr name →
  history_ok h (VRef l) = true →
  handlers !! name = Some (EFun f) →
  f (stamped now h (VRef l)) (VRef l :: args) = (h1, Throw e) →
  step handlers now h (VRef l) args
  = settle (VRef l) (call handlers "catch" h1 (e :: VRef l :: args)).
Proof.
  intros Hdone Hname Hok Hf Hthrow.
  rewrite step_running; try done.
  - unfold try_catch. rewrite (attempt_invokes _ _ _ _ name) by done.
    unfold call at 1. by rewrite Hf, Hthrow.
  - rewrite Hname. by apply registered_fun with f.
Qed.

(** ** Theorems about one step *)

(** C2: stepping a record whose [done] is [true] returns that same record
    and leaves the whole store as it was: nothing is archived, [updated],
    [state] and [history] keep their values, and no handler has run (the
    outcome is the same whatever the handlers are). *)
Theorem step_done_returns_record handlers now h state args :
  get_prop h state "done" = VBool true →
  step handlers now h state args = (h, Return state).
Proof.
  intros Hdone.
  assert (Hst : truthy state = true) by (by destruct state).
  unfold step. by rewrite Hst, Hdone.
Qed.


(** C10: when the transition result (of the handler, or of the catch handler)
    is the empty string, the step succeeds and returns the record with the
    store exactly as the handlers left it: [record.state] is not assigned. *)
Theorem step_empty_string_no_reassignment handlers now h state args h1 :
  truthy state = true →
  truthy (get_prop h state "done") = false →
  registered handlers (to_string h (get_prop h state "state")) = true →
  try_catch handlers now h state args = (h1, Return (VStr "")) →
  step handlers now h state args = (h1, Return state) ∧
  get_prop (step handlers now h state args).1 state "state" = get_prop h1 state "state".
Proof.
  intros Hst Hdone Hreg Htc.
  assert (Heq : step handlers now h state args = (h1, Return state)).
  { rewrite step_running by done. rewrite Htc. unfold settle, strict_eq.
    rewrite bool_decide_eq_false_2; [done|]. intros <-. discriminate. }
  by rewrite Heq.
Qed.

(** C5 (amended): when the handler of a record that is not done returns a
    non-empty string [S], the engine assigns [record.state = S]: the step
    returns the record and its [state] is [S].  The record follows the
    schema ([state] is a string, [history] is missing or an array) and is
    still in the store when the handler returns. *)
Theorem step_string_transition handlers now h l name f args h1 S :
  truthy (get_prop h (VRef l) "done") = false →
  get_prop h (VRef l) "state" = VStr name →
  history_ok h (VRef l) = true →
  handlers !! name = Some (EFun f) →
  f (stamped now h (VRef l)) (VRef l :: args) = (h1, Return (VStr S)) →
  S ≠ "" →
  is_Some (h1 !! l) →
  step handlers now h (VRef l) args
  = (set_prop h1 (VRef l) "state" (VStr S), Return (VRef l)) ∧
  get_prop (step handlers now h (VRef l) args).1 (VRef l) "state" = VStr S.
Proof.
  intros Hdone Hname Hok Hf Hret HS Hl.
  rewrite step_running; try done.
  - unfold try_catch. rewrite (attempt_invokes _ _ _ _ name) by done.
    unfold call. rewrite Hf, Hret. by apply settle_string.
  - rewrite Hname. by apply registered_fun with f.
Qed.

(** C4 (amended): when the handler of a record that is not done throws [e],
    the catch handler is called with [e], the record and the extra
    arguments, and what it returns (or throws) is the transition result.  If
    it returns a non-empty string [E], the step returns the record with
    [state] set to [E], and [e] is not thrown to the caller.  The record
    follows the schema ([state] is a string, [history] is missing or an
    array). *)
Theorem step_handler_throw_caught handlers now h l name f c args h1 e :
  truthy (get_prop h (VRef l) "done") = false →
  get_prop h (VRef l) "state" = VStr name →
  history_ok h (VRef l) = true →
  handlers !! name = Some (EFun f) →
  handlers !! "catch" = Some (EFun c) →
  f (stamped now h (VRef l)) (VRef l :: args) = (h1, Throw e) →
  step handlers now h (VRef l) args
  = settle (VRef l) (c h1 (e :: VRef l :: args)) ∧
  ∀ h2 E,
    c h1 (e :: VRef l :: args) = (h2, Return (VStr E)) →
    E ≠ "" →
    is_Some (h2 !! l) →
    step handlers now h (VRef l) args
    = (set_prop h2 (VRef l) "state" (VStr E), Return (VRef l)) ∧
    get_prop (step handlers now h (VRef l) args).1 (VRef l) "state" = VStr E.
Proof.
  intros Hdone Hname Hok Hf Hc Hthrow.
  assert (Heq : step handlers now h (VRef l) args
                = settle (VRef l) (c h1 (e :: VRef l :: args))).
  { rewrite (step_caught _ _ _ _ name f _ h1 e) by done.
    unfold call. by rewrite Hc. }
  split; [done|]. intros h2 E Hret HE Hl. rewrite Heq, Hret.
  by apply settle_string.
Qed.

(** C8: built from a table without a [catch] entry, the stepper has the
    re-throwing default as its catch handler; when the handler of a record
    that is not done throws [e], the step fails with that same [e].  The
    record follows the schema ([state] is a string, [history] is missing or
    an array). *)
Theorem step_default_catch_rethrows (t : table) now h l name f args h1 e :
  t !! "catch" = None →
  truthy (get_prop h (VRef l) "done") = false →
  get_prop h (VRef l) "state" = VStr name →
  history_ok h (VRef l) = true →
  t !! name = Some (EFun f) →
  f (stamped now h (VRef l)) (VRef l :: args) = (h1, Throw e) →
  install_catch t !! "catch" = Some (EFun default_catch) ∧
  ∃ stepper,
    makeStepper (Some t) = inr stepper ∧
    stepper now h (VRef l) args = (h1, Throw e).
Proof.
  intros Hnone Hdone Hname Hok Hf Hthrow.
  assert (Hinst : install_catch t = <["catch" := EFun default_catch]> t).
  { unfold install_catch. by rewrite Hnone. }
  assert (Hcatch : install_catch t !! "catch" = Some (EFun default_catch)).
  { rewrite Hinst. apply lookup_insert_eq. }
  split; [done|]. eexists. split; [reflexivity|].
  rewrite (step_caught _ _ _ _ name f _ h1 e); try done.
  - unfold call. rewrite Hcatch. reflexivity.
  - rewrite Hinst, lookup_insert_ne; [done|]. intros <-. congruence.
Qed.



(** C1 (amended): when a step on a record that is not done succeeds, and the
    handlers it ran left the first entry and the length of the history as
    they found them, then afterwards [history[0]] is the snapshot of [state]
    and [updated] as they were before the step, and the history is one longer
    than before (a missing history counting as empty). *)
Theorem step_archives_snapshot handlers now h l args h' v :
  is_Some (h !! l) →
  truthy (get_prop h (VRef l) "done") = false →
  history_ok h (VRef l) = true →
  step handlers now h (VRef l) args = (h', Return v) →
  keeps_history (VRef l) (stamped now h (VRef l))
    (try_catch handlers now h (VRef l) args).1 →
  history_head h' (VRef l)
  = Some (snapshot (get_prop h (VRef l) "state") (get_prop h (VRef l) "updated")) ∧
  history_length h' (VRef l) = Some (S (default 0 (history_length h (VRef l)))).
Proof.
  intros Hl Hdone Hok Hstep [Hkh Hkl].
  destruct (stamped_spec now h l Hl Hok) as (_ & Hhead & Hlen & _).
  rewrite Hhead in Hkh. rewrite Hlen in Hkl.
  destruct (registered handlers (to_string h (get_prop h (VRef l) "state"))) eqn:Hreg.
  - rewrite step_running in Hstep by done.
    destruct (try_catch handlers now h (VRef l) args) as [h2 [t|e]];
      cbn [fst] in *; unfold settle in Hstep; [|discriminate].
    destruct (strict_eq t (VRef l)); [by simplify_eq|].
    destruct (truthy t); [|by simplify_eq].
    destruct (is_string t); unfold assert in Hstep; [|discriminate].
    assert (h' = set_prop h2 (VRef l) "state" t) as -> by congruence. split.
    + apply set_prop_history_head; [done|apply snapshot_no_history|done].
    + by rewrite set_prop_history_length.
  - unfold step in Hstep. cbn [truthy] in Hstep.
    rewrite Hdone, Hreg in Hstep. discriminate.
Qed.

(** ** The constructor *)

Lemma State_fields h state :
  match state with VUndef => ∅ | _ => spread h state end = spread h state.
Proof. by destruct state. Qed.


(** ** Further properties of the step *)

Lemma settle_Return state x h' v :
  settle state x = (h', Return v) → v = state.
Proof.
  destruct x as [h1 [t|e]]; unfold settle; [|discriminate].
  destruct (strict_eq t state); [congruence|].
  destruct (truthy t); [|congruence].
  destruct (is_string t); unfold assert; [congruence|discriminate].
Qed.

Lemma get_set_prop_cases h v k x :
  get_prop (set_prop h v k x) v k = x ∨ set_prop h v k x = h.
Proof.
  destruct v; try (by right). simpl.
  destruct (h !! l) as [o|] eqn:Ho; [|by right].
  left. rewrite lookup_insert_eq. simpl. by rewrite lookup_insert_eq.
Qed.

(** X1: whenever a step returns, it returns the very record it was given
    (the same reference), never another value. *)
Theorem step_returns_same_record handlers now h state args h' v :
  step handlers now h state args = (h', Return v) → v = state.
Proof.
  unfold step. destruct (truthy state); unfold assert at 1; [|discriminate].
  destruct (truthy (get_prop h state "done")); [congruence|].
  destruct (registered _ _); unfold assert; [|discriminate].
  apply settle_Return.
Qed.

(** X2: when the transition result is the record itself, or is falsy
    ([undefined], [null], [false], [0], ['']), the step returns the record
    and the store is exactly as the handlers left it: the engine assigns
    nothing. *)
Theorem step_no_reassignment handlers now h state args h1 t :
  truthy state = true →
  truthy (get_prop h state "done") = false →
  registered handlers (to_string h (get_prop h state "state")) = true →
  try_catch handlers now h state args = (h1, Return t) →
  t = state ∨ truthy t = false →
  step handlers now h state args = (h1, Return state).
Proof.
  intros Hst Hdone Hreg Htc Ht. rewrite step_running by done. rewrite Htc.
  unfold settle, strict_eq. destruct Ht as [->|Ht].
  - by rewrite bool_decide_eq_true_2.
  - rewrite Ht. by case_bool_decide.
Qed.

(** X3: when the handler throws and the call of [handlers.catch] throws in
    turn, the step fails with what that call threw, with the store as it left
    it: the catch handler is not protected by the [try]. *)
Theorem step_catch_throw_propagates handlers now h l name f args h1 e h2 e2 :
  truthy (get_prop h (VRef l) "done") = false →
  get_prop h (VRef l) "state" = VStr name →
  history_ok h (VRef l) = true →
  handlers !! name = Some (EFun f) →
  f (stamped now h (VRef l)) (VRef l :: args) = (h1, Throw e) →
  call handlers "catch" h1 (e :: VRef l :: args) = (h2, Throw e2) →
  step handlers now h (VRef l) args = (h2, Throw e2).
Proof.
  intros Hdone Hname Hok Hf Hthrow Hcatch.
  rewrite (step_caught _ _ _ _ name f _ h1 e) by done. by rewrite Hcatch.
Qed.

(** X4: an error reaches the caller of a step only as one of the engine's
    three assertion errors or as what the call of [handlers.catch] threw;
    what the [try] block throws is never passed on directly. *)
Theorem step_throw_origin handlers now h state args h' e :
  step handlers now h state args = (h', Throw e) →
  e = VAssertionError "Handling state requires a state object" ∨
  e = VAssertionError
        ("Invalid state trasition: " +:+ to_string h (get_prop h state "state")) ∨
  e = VAssertionError bad_return ∨
  ∃ h1 e0,
    attempt handlers now h state args = (h1, Throw e0) ∧
    call handlers "catch" h1 (e0 :: state :: args) = (h', Throw e).
Proof.
  unfold step. destruct (truthy state); unfold assert at 1;
    [|intros [= _ <-]; by left].
  destruct (truthy (get_prop h state "done")); [discriminate|].
  destruct (registered _ _); unfold assert at 1;
    [|intros [= _ <-]; right; by left].
  unfold try_catch.
  destruct (attempt handlers now h state args) as [h1 [t|e0]]; unfold settle.
  - destruct (strict_eq t state); [discriminate|].
    destruct (truthy t); [|discriminate].
    destruct (is_string t); unfold assert; [discriminate|].
    intros [= _ <-]. right; right; by left.
  - destruct (call handlers "catch" h1 (e0 :: state :: args)) as [h2 [t|e2]] eqn:Hc.
    + destruct (strict_eq t state); [discriminate|].
      destruct (truthy t); [|discriminate].
      destruct (is_string t); unfold assert; [discriminate|].
      intros [= _ <-]. right; right; by left.
    + intros [= <- <-]. right; right; right. by exists h1, e0.
Qed.

(** X5: after the handlers have run, the engine changes [record.state] only
    to the non-empty string that is the transition result; otherwise
    [record.state] stays as the handlers left it. *)
Theorem step_state_assignment handlers now h state args :
  truthy state = true →
  truthy (get_prop h state "done") = false →
  registered handlers (to_string h (get_prop h state "state")) = true →
  get_prop (step handlers now h state args).1 state "state"
  = get_prop (try_catch handlers now h state args).1 state "state" ∨
  ∃ S, S ≠ "" ∧
    (try_catch handlers now h state args).2 = Return (VStr S) ∧
    get_prop (step handlers now h state args).1 state "state" = VStr S.
Proof.
  intros Hst Hdone Hreg. rewrite step_running by done.
  destruct (try_catch handlers now h state args) as [h1 [t|e]]; unfold settle;
    [|by left].
  destruct (strict_eq t state); [by left|].
  destruct (truthy t) eqn:Ht; [|by left].
  destruct t; unfold is_string, assert; try (by left). cbn [fst snd].
  destruct (get_set_prop_cases h1 state "state" (VStr s)) as [Hset| ->];
    [|by left].
  right. exists s. split; [|done]. intros ->. discriminate.
Qed.

(** ** What the engine writes before the handler runs *)

Lemma unshift_snapshot_cases h state :
  (∃ a p es,
      get_prop h state "history" = VRef a ∧
      h !! a = Some (Obj p (Some es)) ∧
      unshift_snapshot h state
      = (<[a := Obj p (Some (VRef (fresh_loc h) :: es))]>
           (<[fresh_loc h := snapshot (get_prop h state "state")
                               (get_prop h state "updated")]> h),
         Return VUndef)) ∨
  (history h state = None ∧ unshift_snapshot h state = (h, Throw VTypeError)).
Proof.
  unfold unshift_snapshot, history.
  destruct (get_prop h state "history") as [| | | | |a| |]; try (by right).
  simpl. destruct (h !! a) as [[p [es|]]|] eqn:Ha; try (by right).
  left. by exists a, p, es.
Qed.

Lemma archive_fst h state :
  (archive h state).1
  = (unshift_snapshot
       (if nullish (get_prop h state "history")
        then set_prop (<[fresh_loc h := Obj ∅ (Some [])]> h) state "history"
               (VRef (fresh_loc h))
        else h) state).1.
Proof. unfold archive. by destruct (unshift_snapshot _ _) as [h2 [v|e]]. Qed.

Lemma unshift_snapshot_lookup h state l' :
  is_Some (h !! l') →
  get_prop h state "history" ≠ VRef l' →
  (unshift_snapshot h state).1 !! l' = h !! l'.
Proof.
  intros Hl' Hne.
  destruct (unshift_snapshot_cases h state) as [(a & p & es & Hh & Ha & ->)|[_ ->]];
    [|done].
  cbn [fst]. rewrite lookup_insert_ne by congruence.
  rewrite lookup_insert_ne; [done|]. intros Heq. by apply (fresh_loc_ne h l').
Qed.

Lemma unshift_snapshot_is_Some h state l' :
  is_Some (h !! l') → is_Some ((unshift_snapshot h state).1 !! l').
Proof.
  intros Hl'.
  destruct (unshift_snapshot_cases h state) as [(a & p & es & Hh & Ha & ->)|[_ ->]];
    [|done].
  cbn [fst]. destruct (decide (a = l')) as [->|Hne].
  - rewrite lookup_insert_eq. eauto.
  - rewrite lookup_insert_ne by done.
    rewrite lookup_insert_ne; [done|]. intros Heq. by apply (fresh_loc_ne h l').
Qed.

Lemma unshift_snapshot_get_prop h l k :
  is_Some (h !! l) →
  get_prop (unshift_snapshot h (VRef l)).1 (VRef l) k = get_prop h (VRef l) k.
Proof.
  intros Hl.
  destruct (unshift_snapshot_cases h (VRef l)) as [(a & p & es & Hh & Ha & ->)|[_ ->]];
    [|done].
  cbn [fst]. destruct (decide (l = a)) as [->|Hne].
  - simpl. rewrite lookup_insert_eq, Ha. done.
  - rewrite get_prop_insert_ne by done.
    rewrite get_prop_insert_ne; [done|]. by apply fresh_loc_ne.
Qed.

Lemma archive_get_prop h l k :
  is_Some (h !! l) →
  k ≠ "history" →
  get_prop (archive h (VRef l)).1 (VRef l) k = get_prop h (VRef l) k.
Proof.
  intros Hl Hk. rewrite archive_fst.
  destruct (nullish (get_prop h (VRef l) "history")).
  - assert (Hal : l ≠ fresh_loc h) by (by apply fresh_loc_ne).
    rewrite unshift_snapshot_get_prop.
    + rewrite get_set_prop_ne by done. by rewrite get_prop_insert_ne.
    + apply set_prop_is_Some. by rewrite lookup_insert_ne.
  - by apply unshift_snapshot_get_prop.
Qed.

Lemma archive_is_Some h state l' :
  is_Some (h !! l') → is_Some ((archive h state).1 !! l').
Proof.
  intros Hl'. rewrite archive_fst. apply unshift_snapshot_is_Some.
  destruct (nullish (get_prop h state "history")); [|done].
  apply set_prop_is_Some. rewrite lookup_insert_ne; [done|].
  intros Heq. by apply (fresh_loc_ne h l').
Qed.

Lemma archive_lookup h l l' :
  is_Some (h !! l) →
  is_Some (h !! l') →
  l' ≠ l →
  get_prop h (VRef l) "history" ≠ VRef l' →
  (archive h (VRef l)).1 !! l' = h !! l'.
Proof.
  intros Hl Hl' Hne Hhist. rewrite archive_fst.
  destruct (nullish (get_prop h (VRef l) "history")); [|by apply unshift_snapshot_lookup].
  assert (Hal : l ≠ fresh_loc h) by (by apply fresh_loc_ne).
  assert (Hal' : l' ≠ fresh_loc h) by (by apply fresh_loc_ne).
  assert (Hsame : set_prop (<[fresh_loc h := Obj ∅ (Some [])]> h) (VRef l) "history"
                    (VRef (fresh_loc h)) !! l' = h !! l').
  { rewrite set_prop_lookup_ne by done. by rewrite lookup_insert_ne. }
  rewrite unshift_snapshot_lookup; [done| |].
  - by rewrite Hsame.
  - rewrite get_set_prop_eq; [congruence|]. by rewrite lookup_insert_ne.
Qed.

(** X6: the engine's writes before the handler runs (the archive and the
    stamp) remove no object from the store, and leave every object other
    than the record and its history array exactly as it was. *)
Theorem stamped_frame now h l l' :
  is_Some (h !! l) →
  is_Some (h !! l') →
  is_Some (stamped now h (VRef l) !! l') ∧
  (l' ≠ l →
   get_prop h (VRef l) "history" ≠ VRef l' →
   stamped now h (VRef l) !! l' = h !! l').
Proof.
  intros Hl Hl'. unfold stamped. split.
  - by apply set_prop_is_Some, archive_is_Some.
  - intros Hne Hhist. rewrite set_prop_lookup_ne by done. by apply archive_lookup.
Qed.

(** X7: of the record's own properties, the engine writes [history] and
    [updated] before the handler runs and [state] after it, and no other:
    [done] and the caller's fields are only ever changed by the handlers. *)
Theorem step_field_frame handlers now h l args :
  is_Some (h !! l) →
  truthy (get_prop h (VRef l) "done") = false →
  registered handlers (to_string h (get_prop h (VRef l) "state")) = true →
  (∀ k, k ≠ "history" → k ≠ "updated" →
        get_prop (stamped now h (VRef l)) (VRef l) k = get_prop h (VRef l) k) ∧
  (∀ k, k ≠ "state" →
        get_prop (step handlers now h (VRef l) args).1 (VRef l) k
        = get_prop (try_catch handlers now h (VRef l) args).1 (VRef l) k).
Proof.
  intros Hl Hdone Hreg. split.
  - intros k Hk1 Hk2. unfold stamped. rewrite get_set_prop_ne by done.
    by apply archive_get_prop.
  - intros k Hk. rewrite step_running by done.
    destruct (try_catch handlers now h (VRef l) args) as [h1 [t|e]]; unfold settle;
      [|done].
    destruct (strict_eq t (VRef l)); [done|].
    destruct (truthy t); [|done].
    destruct (is_string t); unfold assert; [|done].
    cbn [fst]. by rewrite get_set_prop_ne.
Qed.

(** ** The history as a log *)

Lemma archive_prepends h l :
  is_Some (h !! l) →
  history_ok h (VRef l) = true →
  ∃ s a,
    h !! s = None ∧ s ≠ a ∧
    get_prop (archive h (VRef l)).1 (VRef l) "history" = VRef a ∧
    (nullish (get_prop h (VRef l) "history") = false →
     get_prop h (VRef l) "history" = VRef a) ∧
    (archive h (VRef l)).1 !! s
    = Some (snapshot (get_prop h (VRef l) "state") (get_prop h (VRef l) "updated")) ∧
    history (archive h (VRef l)).1 (VRef l)
    = Some (VRef s :: default [] (history h (VRef l))).
Proof.
  intros Hl Hok. rewrite archive_fst.
  destruct (nullish (get_prop h (VRef l) "history")) eqn:Hnull.
  - set (a := fresh_loc h).
    assert (Hal : l ≠ a) by (by apply fresh_loc_ne).
    set (h0 := set_prop (<[a := Obj ∅ (Some [])]> h) (VRef l) "history" (VRef a)).
    assert (Hl0 : is_Some (h0 !! l)).
    { apply set_prop_is_Some. by rewrite lookup_insert_ne. }
    assert (Hh0 : get_prop h0 (VRef l) "history" = VRef a).
    { apply get_set_prop_eq. by rewrite lookup_insert_ne. }
    assert (Ha0 : h0 !! a = Some (Obj ∅ (Some []))).
    { unfold h0. rewrite set_prop_lookup_ne by done. apply lookup_insert_eq. }
    assert (Hget : ∀ k, k ≠ "history" → get_prop h0 (VRef l) k = get_prop h (VRef l) k).
    { intros k Hk. unfold h0. rewrite get_set_prop_ne by done.
      by rewrite get_prop_insert_ne. }
    destruct (unshift_snapshot_cases h0 (VRef l))
      as [(a' & p & es & Hh & Ha & ->)|[Hnone _]].
    + rewrite Hh0 in Hh. injection Hh as <-. rewrite Ha0 in Ha.
      injection Ha as <- <-. cbn [fst].
      set (s := fresh_loc h0).
      assert (Hsa : a ≠ s) by (apply fresh_loc_ne; eauto).
      assert (Hsl : l ≠ s) by (by apply fresh_loc_ne).
      assert (Hhist : get_prop (<[a:=Obj ∅ (Some [VRef s])]> (<[s:=snapshot
                        (get_prop h0 (VRef l) "state") (get_prop h0 (VRef l) "updated")]> h0))
                        (VRef l) "history" = VRef a).
      { by rewrite !get_prop_insert_ne. }
      exists s, a. split; [|split; [done|split; [done|split; [done|split]]]].
      * destruct (h !! s) as [o|] eqn:Hs; [|done]. exfalso.
        apply (fresh_loc_ne h0 s); [|done]. unfold h0.
        apply set_prop_is_Some. rewrite lookup_insert_ne; [eauto|].
        intros Heq. apply (fresh_loc_ne h s); [eauto|]. by symmetry.
      * rewrite lookup_insert_ne by done. rewrite lookup_insert_eq.
        by rewrite !Hget.
      * rewrite (history_None_nullish h (VRef l) Hnull).
        unfold history. rewrite Hhist. simpl. by rewrite lookup_insert_eq.
    + unfold history in Hnone. rewrite Hh0 in Hnone. simpl in Hnone.
      rewrite Ha0 in Hnone. discriminate.
  - unfold history_ok in Hok. rewrite Hnull in Hok. simpl in Hok.
    apply bool_decide_eq_true in Hok as [es0 Hes0].
    destruct (unshift_snapshot_cases h (VRef l))
      as [(a & p & es & Hh & Ha & ->)|[Hnone _]]; [|congruence].
    cbn [fst]. set (s := fresh_loc h).
    assert (Hsa : a ≠ s) by (apply fresh_loc_ne; eauto).
    assert (Hsl : l ≠ s) by (by apply fresh_loc_ne).
    set (x := snapshot _ _).
    assert (Hhist : get_prop (<[a:=Obj p (Some (VRef s :: es))]> (<[s:=x]> h))
                      (VRef l) "history" = VRef a).
    { destruct (decide (l = a)) as [->|Hne].
      - simpl. rewrite lookup_insert_eq. simpl in Hh. rewrite Ha in Hh. done.
      - by rewrite !get_prop_insert_ne. }
    exists s, a. split; [apply fresh_loc_None|].
    split; [done|]. split; [done|]. split; [done|]. split.
    + rewrite lookup_insert_ne by done. by rewrite lookup_insert_eq.
    + unfold history at 1. rewrite Hhist. simpl. rewrite lookup_insert_eq. simpl.
      unfold history. rewrite Hh. simpl. by rewrite Ha.
Qed.

(** X8: the archive puts a newly allocated snapshot of the record's [state]
    and [updated] in front of the history and keeps all older entries, in
    their order (a missing history counting as empty). *)
Theorem stamped_prepends now h l :
  is_Some (h !! l) →
  history_ok h (VRef l) = true →
  ∃ s,
    h !! s = None ∧
    history (stamped now h (VRef l)) (VRef l)
    = Some (VRef s :: default [] (history h (VRef l))) ∧
    stamped now h (VRef l) !! s
    = Some (snapshot (get_prop h (VRef l) "state") (get_prop h (VRef l) "updated")).
Proof.
  intros Hl Hok.
  destruct (archive_prepends h l Hl Hok) as (s & a & Hs & Hsa & Hh & _ & Hsnap & Hhist).
  exists s. split; [done|]. unfold stamped. split.
  - by rewrite set_prop_history.
  - rewrite set_prop_lookup_ne; [done|]. intros ->. rewrite Hs in Hl. by destruct Hl.
Qed.

Lemma entry_ok_inv h state x :
  entry_ok h state x = true →
  x ≠ state ∧ x ≠ get_prop h state "history" ∧
  (∀ l, x = VRef l → is_Some (h !! l)).
Proof.
  unfold entry_ok, strict_eq. rewrite !andb_true_iff, !negb_true_iff.
  intros [[H1 H2] H3].
  apply bool_decide_eq_false in H1. apply bool_decide_eq_false in H2.
  split; [done|]. split; [done|]. intros l ->. by apply bool_decide_eq_true in H3.
Qed.

Lemma entry_ok_intro h state x :
  x ≠ state → x ≠ get_prop h state "history" →
  (∀ l, x = VRef l → is_Some (h !! l)) →
  entry_ok h state x = true.
Proof.
  intros H1 H2 H3. unfold entry_ok, strict_eq.
  rewrite !bool_decide_eq_false_2 by done. simpl.
  destruct x; try done. apply bool_decide_eq_true. by apply H3.
Qed.

Lemma history_ok_Some h state es :
  history h state = Some es → history_ok h state = true.
Proof.
  intros Hes. unfold history_ok. rewrite bool_decide_eq_true_2 by eauto.
  apply orb_true_r.
Qed.

Lemma stamped_log now h l :
  is_Some (h !! l) →
  history_ok h (VRef l) = true →
  history_entries_ok h (VRef l) = true →
  history_objects (stamped now h (VRef l)) (VRef l)
  = Some (Some (snapshot (get_prop h (VRef l) "state") (get_prop h (VRef l) "updated"))
          :: default [] (history_objects h (VRef l))) ∧
  history_entries_ok (stamped now h (VRef l)) (VRef l) = true ∧
  history_ok (stamped now h (VRef l)) (VRef l) = true.
Proof.
  intros Hl Hok Hent.
  destruct (archive_prepends h l Hl Hok)
    as (s & a & Hs & Hsa & Hh & Hold & Hsnap & Hhist).
  assert (Hsl : s ≠ l) by (intros ->; rewrite Hs in Hl; by destruct Hl).
  assert (HH : history (stamped now h (VRef l)) (VRef l)
               = Some (VRef s :: default [] (history h (VRef l)))).
  { unfold stamped. by rewrite set_prop_history. }
  assert (Hha : get_prop (stamped now h (VRef l)) (VRef l) "history" = VRef a).
  { unfold stamped. by rewrite get_set_prop_ne. }
  assert (Hss : stamped now h (VRef l) !! s
                = Some (snapshot (get_prop h (VRef l) "state")
                          (get_prop h (VRef l) "updated"))).
  { unfold stamped. by rewrite set_prop_lookup_ne. }
  assert (Hentries : ∀ x, In x (default [] (history h (VRef l))) →
            deref (stamped now h (VRef l)) x = deref h x ∧
            entry_ok (stamped now h (VRef l)) (VRef l) x = true).
  { intros x Hx.
    destruct (nullish (get_prop h (VRef l) "history")) eqn:Hnull.
    { rewrite (history_None_nullish h (VRef l) Hnull) in Hx. destruct Hx. }
    unfold history_entries_ok in Hent. rewrite forallb_forall in Hent.
    destruct (entry_ok_inv _ _ _ (Hent x Hx)) as (Hx1 & Hx2 & Hx3).
    rewrite (Hold eq_refl) in Hx2.
    destruct x as [| | | | |x'| |];
      try (split; [done|apply entry_ok_intro; [done|by rewrite Hha|done]]).
    assert (Hx' : is_Some (h !! x')) by (by apply Hx3).
    assert (Hxl : x' ≠ l) by congruence.
    assert (Hsame : stamped now h (VRef l) !! x' = h !! x').
    { unfold stamped. rewrite set_prop_lookup_ne by done.
      apply archive_lookup; try done. rewrite (Hold eq_refl). done. }
    split; [done|]. apply entry_ok_intro; [done|by rewrite Hha|].
    intros ? [= <-]. by rewrite Hsame. }
  split; [|split].
  - unfold history_objects. rewrite HH. cbn [map deref]. rewrite Hss.
    do 2 f_equal. destruct (history h (VRef l)) as [es|]; [|done].
    simpl in *. apply map_ext_in. intros x Hx. by apply Hentries.
  - unfold history_entries_ok. rewrite HH. cbn [default forallb].
    apply andb_true_iff. split.
    + apply entry_ok_intro; [congruence|rewrite Hha; congruence|].
      intros ? [= <-]. rewrite Hss. eauto.
    + apply forallb_forall. intros x Hx. by apply Hentries.
  - by apply history_ok_Some with (VRef s :: default [] (history h (VRef l))).
Qed.

(** X9: when the entries of the history are primitives or objects of the
    store other than the record and the history array, the archive leaves
    each of them as it was, behind the new snapshot; and the history is then
    again of that kind, so that steps can follow one another. *)
Theorem stamped_keeps_older_entries now h l :
  is_Some (h !! l) →
  history_ok h (VRef l) = true →
  history_entries_ok h (VRef l) = true →
  history_objects (stamped now h (VRef l)) (VRef l)
  = Some (Some (snapshot (get_prop h (VRef l) "state") (get_prop h (VRef l) "updated"))
          :: default [] (history_objects h (VRef l))) ∧
  history_entries_ok (stamped now h (VRef l)) (VRef l) = true ∧
  history_ok (stamped now h (VRef l)) (VRef l) = true.
Proof. apply stamped_log. Qed.



(** ** Edge cases of the step *)

Lemma archive_fails h state :
  history_ok h state = false → archive h state = (h, Throw VTypeError).
Proof.
  unfold history_ok. intros Hok. apply orb_false_iff in Hok as [Hnull Hnone].
  apply bool_decide_eq_false in Hnone.
  unfold archive. rewrite Hnull.
  destruct (unshift_snapshot_cases h state) as [(a & p & es & Hh & Ha & _)|[_ ->]];
    [|done].
  exfalso. apply Hnone. exists es. unfold history. rewrite Hh. simpl. by rewrite Ha.
Qed.

(** X11: when [record.history] is present but is not an array, [unshift]
    fails inside the [try]: nothing is archived, [updated] is not set, the
    state handler is not invoked, and the catch handler is called on the
    untouched store with the runtime's type error. *)
Theorem step_history_not_an_array handlers now h state args :
  truthy state = true →
  truthy (get_prop h state "done") = false →
  registered handlers (to_string h (get_prop h state "state")) = true →
  history_ok h state = false →
  attempt handlers now h state args = (h, Throw VTypeError) ∧
  step handlers now h state args
  = settle state (call handlers "catch" h (VTypeError :: state :: args)).
Proof.
  intros Hst Hdone Hreg Hok.
  assert (Hatt : attempt handlers now h state args = (h, Throw VTypeError)).
  { unfold attempt. by rewrite archive_fails. }
  split; [done|]. rewrite step_running by done. unfold try_catch. by rewrite Hatt.
Qed.

(** X12: when [handlers[record.state]] is truthy but is not a function, the
    record passes the invalid-state check, is archived and stamped, and the
    failed call is handled like a handler's throw: the catch handler is
    called on the stamped store with the runtime's type error. *)
Theorem step_handler_not_a_function handlers now h l name v args :
  truthy (get_prop h (VRef l) "done") = false →
  get_prop h (VRef l) "state" = VStr name →
  history_ok h (VRef l) = true →
  handlers !! name = Some (EVal v) →
  truthy v = true →
  step handlers now h (VRef l) args
  = settle (VRef l)
      (call handlers "catch" (stamped now h (VRef l)) (VTypeError :: VRef l :: args)).
Proof.
  intros Hdone Hname Hok Hv Htruthy.
  rewrite step_running; try done.
  - unfold try_catch. rewrite (attempt_invokes _ _ _ _ name) by done.
    assert (call handlers name (stamped now h (VRef l)) (VRef l :: args)
            = (stamped now h (VRef l), Throw VTypeError)) as ->
      by (unfold call; by rewrite Hv).
    done.
  - rewrite Hname. unfold registered. cbn [to_string]. by rewrite Hv.
Qed.

(** X13: a [catch] entry that is neither a function nor [null] or
    [undefined] (say [false]) is kept by the constructor; when a handler then
    throws [e], calling that entry fails and the step fails with the
    runtime's type error instead of [e]. *)
Theorem step_catch_not_a_function (t : table) now h l name f v args h1 e :
  t !! "catch" = Some (EVal v) →
  nullish v = false →
  truthy (get_prop h (VRef l) "done") = false →
  get_prop h (VRef l) "state" = VStr name →
  history_ok h (VRef l) = true →
  t !! name = Some (EFun f) →
  f (stamped now h (VRef l)) (VRef l :: args) = (h1, Throw e) →
  install_catch t = t ∧
  step (install_catch t) now h (VRef l) args = (h1, Throw VTypeError).
Proof.
  intros Hc Hnull Hdone Hname Hok Hf Hthrow.
  assert (Hinst : install_catch t = t).
  { unfold install_catch. rewrite Hc. by destruct v. }
  split; [done|]. rewrite Hinst.
  rewrite (step_caught _ _ _ _ name f _ h1 e) by done.
  unfold call. by rewrite Hc.
Qed.

(** X14: the constructor changes the table at most under the key ["catch"]:
    every other entry is as supplied, a supplied catch function is kept, the
    entry under ["catch"] is afterwards never missing, [null] or
    [undefined], and installing a second time changes nothing. *)
Theorem install_catch_only_catch (t : table) :
  (∀ k, k ≠ "catch" → install_catch t !! k = t !! k) ∧
  (∀ c, t !! "catch" = Some (EFun c) → install_catch t = t) ∧
  (∃ x, install_catch t !! "catch" = Some x ∧
        x ≠ EVal VUndef ∧ x ≠ EVal VNull) ∧
  install_catch (install_catch t) = install_catch t.
Proof.
  assert (Hkeep : ∀ t' : table, (∃ x, t' !! "catch" = Some x ∧
                     x ≠ EVal VUndef ∧ x ≠ EVal VNull) → install_catch t' = t').
  { intros t' (x & Hx & H1 & H2). unfold install_catch. rewrite Hx.
    destruct x as [c|[]]; done. }
  assert (Hsome : ∃ x, install_catch t !! "catch" = Some x ∧
                       x ≠ EVal VUndef ∧ x ≠ EVal VNull).
  { unfold install_catch.
    destruct (t !! "catch") as [[c|v]|] eqn:Hc.
    - exists (EFun c). by rewrite Hc.
    - destruct v; try (exists (EFun default_catch); by rewrite lookup_insert_eq);
        eexists; (split; [exact Hc|done]).
    - exists (EFun default_catch). by rewrite lookup_insert_eq. }
  split; [|split; [|split; [done|by apply Hkeep]]].
  - intros k Hk. unfold install_catch.
    destruct (t !! "catch") as [[c|[]]|]; try done; by rewrite lookup_insert_ne.
  - intros c Hc. unfold install_catch. by rewrite Hc.
Qed.

(** X15: any truthy [done] ends the record, not only [true], and it does so
    before the state is looked at: the step returns the record and the store
    unchanged even when [record.state] names no handler. *)
Theorem step_truthy_done handlers now h state args :
  truthy (get_prop h state "done") = true →
  step handlers now h state args = (h, Return state).
Proof.
  intros Hdone.
  assert (Hst : truthy state = true).
  { destruct state; try done; simpl in Hdone; discriminate. }
  unfold step. by rewrite Hst, Hdone.
Qed.


(** ** Records made by the constructor *)

Lemma State_inv now h state :
  ∃ l a,
    h !! l = None ∧ h !! a = None ∧ l ≠ a ∧
    State now h state
    = (<[l := Obj (spread h state ∪ defaults (VRef a) now) None]>
         (<[a := Obj ∅ (Some [])]> (<[l := Obj ∅ None]> h)), VRef l).
Proof.
  unfold State. rewrite State_fields.
  set (l := fresh_loc h).
  set (a := fresh_loc (<[l := Obj ∅ None]> h)).
  assert (Hla : l ≠ a).
  { apply fresh_loc_ne. rewrite lookup_insert_eq. eauto. }
  exists l, a. split; [apply fresh_loc_None|]. split; [|done].
  pose proof (fresh_loc_None (<[l := Obj ∅ None]> h)) as Hf. fold a in Hf.
  by rewrite lookup_insert_ne in Hf.
Qed.

Lemma defaults_history a now : defaults (VRef a) now !! "history" = Some (VRef a).
Proof.
  unfold defaults. rewrite !lookup_insert_ne by done. apply lookup_insert_eq.
Qed.

Lemma history_via h state a :
  get_prop h state "history" = VRef a →
  history h state = match h !! a with Some o => elems o | None => None end.
Proof. intros Hh. unfold history. by rewrite Hh. Qed.


(** X18: two records made by [State] (from fields without a [history]) are
    distinct objects with distinct history arrays; the engine's archive on
    the first leaves the history of the second empty. *)
Theorem State_histories_not_shared now1 now2 now3 h s1 s2 :
  spread h s1 !! "history" = None →
  spread (State now1 h s1).1 s2 !! "history" = None →
  (State now1 h s1).2 ≠ (State now2 (State now1 h s1).1 s2).2 ∧
  get_prop (State now2 (State now1 h s1).1 s2).1 (State now1 h s1).2 "history"
  ≠ get_prop (State now2 (State now1 h s1).1 s2).1
      (State now2 (State now1 h s1).1 s2).2 "history" ∧
  history_length
    (stamped now3 (State now2 (State now1 h s1).1 s2).1 (State now1 h s1).2)
    (State now1 h s1).2 = Some 1 ∧
  history_length
    (stamped now3 (State now2 (State now1 h s1).1 s2).1 (State now1 h s1).2)
    (State now2 (State now1 h s1).1 s2).2 = Some 0.
Proof.
  intros Hn1 Hn2.
  destruct (State_inv now1 h s1) as (l1 & a1 & Hl1 & Ha1 & Hla1 & E1).
  rewrite E1 in *. cbn [fst snd] in *.
  set (h1 := <[l1 := _]> _) in *.
  assert (Hl1' : h1 !! l1 = Some (Obj (spread h s1 ∪ defaults (VRef a1) now1) None))
    by (unfold h1; by rewrite lookup_insert_eq).
  assert (Ha1' : h1 !! a1 = Some (Obj ∅ (Some []))).
  { unfold h1. rewrite lookup_insert_ne by done. by rewrite lookup_insert_eq. }
  destruct (State_inv now2 h1 s2) as (l2 & a2 & Hl2 & Ha2 & Hla2 & E2).
  rewrite E2. cbn [fst snd].
  set (h2 := <[l2 := _]> _).
  assert (Hne_l : l1 ≠ l2) by congruence.
  assert (Hne_a : a1 ≠ a2) by congruence.
  assert (Hl1a2 : l1 ≠ a2) by congruence.
  assert (Ha1l2 : a1 ≠ l2) by congruence.
  assert (H2l1 : h2 !! l1 = h1 !! l1) by (unfold h2; by rewrite !lookup_insert_ne).
  assert (H2a1 : h2 !! a1 = h1 !! a1) by (unfold h2; by rewrite !lookup_insert_ne).
  assert (H2l2 : h2 !! l2 = Some (Obj (spread h1 s2 ∪ defaults (VRef a2) now2) None))
    by (unfold h2; by rewrite lookup_insert_eq).
  assert (H2a2 : h2 !! a2 = Some (Obj ∅ (Some []))).
  { unfold h2. rewrite lookup_insert_ne by done. by rewrite lookup_insert_eq. }
  assert (Hg1 : get_prop h2 (VRef l1) "history" = VRef a1).
  { simpl. rewrite H2l1, Hl1'. simpl. rewrite lookup_union_r by done.
    by rewrite defaults_history. }
  assert (Hg2 : get_prop h2 (VRef l2) "history" = VRef a2).
  { simpl. rewrite H2l2. simpl. rewrite lookup_union_r by done.
    by rewrite defaults_history. }
  assert (Hh1 : history h2 (VRef l1) = Some []).
  { rewrite (history_via _ _ a1 Hg1). by rewrite H2a1, Ha1'. }
  assert (Hlive1 : is_Some (h2 !! l1)) by (rewrite H2l1, Hl1'; eauto).
  split; [congruence|]. split; [rewrite Hg1, Hg2; congruence|]. split.
  - destruct (stamped_spec now3 h2 l1 Hlive1 (history_ok_Some _ _ _ Hh1))
      as (_ & _ & -> & _).
    unfold history_length. by rewrite Hh1.
  - unfold history_length.
    assert (Hs2 : stamped now3 h2 (VRef l1) !! l2 = h2 !! l2).
    { unfold stamped. rewrite set_prop_lookup_ne by done.
      apply archive_lookup; [done|rewrite H2l2; eauto|done|].
      rewrite Hg1. congruence. }
    assert (Hsa2 : stamped now3 h2 (VRef l1) !! a2 = h2 !! a2).
    { unfold stamped. rewrite set_prop_lookup_ne by done.
      apply archive_lookup; [done|rewrite H2a2; eauto|done|].
      rewrite Hg1. congruence. }
    assert (Hg2' : get_prop (stamped now3 h2 (VRef l1)) (VRef l2) "history" = VRef a2).
    { pose proof Hg2 as Hg2c. unfold get_prop in Hg2c |- *. by rewrite Hs2. }
    rewrite (history_via _ _ a2 Hg2'). by rewrite Hsa2, H2a2.
Qed.

(** X19: [State] copies the caller's fields by reference: a history array
    supplied by the caller is shared with the new record, and the archive of
    a step on the new record puts the snapshot in the caller's array too. *)
Theorem State_shares_caller_history now now' h o p a pa es :
  h !! o = Some (Obj p None) →
  p !! "history" = Some (VRef a) →
  h !! a = Some (Obj pa (Some es)) →
  get_prop (State now h (VRef o)).1 (State now h (VRef o)).2 "history"
  = get_prop h (VRef o) "history" ∧
  history h (VRef o) = Some es ∧
  ∃ s, h !! s = None ∧
       history (stamped now' (State now h (VRef o)).1 (State now h (VRef o)).2)
         (VRef o) = Some (VRef s :: es).
Proof.
  intros Ho Hp Ha.
  assert (Hoa : o ≠ a) by (intros ->; congruence).
  assert (Hgo : get_prop h (VRef o) "history" = VRef a).
  { simpl. rewrite Ho. simpl. by rewrite Hp. }
  destruct (State_inv now h (VRef o)) as (l & a0 & Hl & Ha0 & Hla0 & ->).
  cbn [fst snd]. set (h' := <[l := _]> _).
  assert (Hol : o ≠ l) by congruence.
  assert (Hoa0 : o ≠ a0) by congruence.
  assert (Hal : a ≠ l) by congruence.
  assert (Haa0 : a ≠ a0) by congruence.
  assert (Hl' : h' !! l = Some (Obj (spread h (VRef o) ∪ defaults (VRef a0) now) None))
    by (unfold h'; by rewrite lookup_insert_eq).
  assert (Ho' : h' !! o = h !! o) by (unfold h'; by rewrite !lookup_insert_ne).
  assert (Ha' : h' !! a = h !! a) by (unfold h'; by rewrite !lookup_insert_ne).
  assert (Hgl : get_prop h' (VRef l) "history" = VRef a).
  { simpl. rewrite Hl'. simpl. rewrite Ho.
    by rewrite (lookup_union_Some_l _ _ _ _ Hp). }
  assert (Hhl : history h' (VRef l) = Some es).
  { rewrite (history_via _ _ a Hgl). by rewrite Ha', Ha. }
  assert (Hlive : is_Some (h' !! l)) by (rewrite Hl'; eauto).
  split; [by rewrite Hgl, Hgo|]. split.
  { rewrite (history_via _ _ a Hgo). by rewrite Ha. }
  destruct (archive_prepends h' l Hlive (history_ok_Some _ _ _ Hhl))
    as (s & a' & Hs & Hsa & Hh & Hold & _ & Hhist).
  rewrite Hgl in Hold. specialize (Hold eq_refl). injection Hold as <-.
  rewrite Hhl in Hhist. cbn [default] in Hhist.
  exists s. split.
  { destruct (h !! s) as [x|] eqn:Hx; [|done]. exfalso.
    assert (s ≠ l) by congruence. assert (s ≠ a0) by congruence.
    unfold h' in Hs. rewrite !lookup_insert_ne in Hs by done. congruence. }
  assert (Hso : stamped now' h' (VRef l) !! o = h !! o).
  { unfold stamped. rewrite set_prop_lookup_ne by done. rewrite <- Ho'.
    apply archive_lookup; [done|rewrite Ho', Ho; eauto|done|].
    rewrite Hgl. congruence. }
  assert (Hgo' : get_prop (stamped now' h' (VRef l)) (VRef o) "history" = VRef a).
  { unfold get_prop. rewrite Hso, Ho. simpl. by rewrite Hp. }
  assert (Hgl' : get_prop (stamped now' h' (VRef l)) (VRef l) "history" = VRef a).
  { unfold stamped. by rewrite get_set_prop_ne. }
  assert (Hhs : history (stamped now' h' (VRef l)) (VRef l) = Some (VRef s :: es)).
  { unfold stamped. by rewrite set_prop_history. }
  rewrite (history_via _ _ a Hgl') in Hhs.
  by rewrite (history_via _ _ a Hgo').
Qed.

End Engine.

(** ** The theorems at work on the sample handlers *)

Lemma step_done_returns_record_witness :
  step plain_to_string test_steps 200 done_store fresh_record []
  = (done_store, Return fresh_record).
Proof.
  apply (step_done_returns_record plain_to_string test_steps 200 done_store
           fresh_record []).
  vm_compute. reflexivity.
Defined.


Lemma step_empty_string_no_reassignment_witness :
  step plain_to_string (install_catch empty_string_steps) 200 fresh_store
    fresh_record []
  = (stamped 200 fresh_store fresh_record, Return fresh_record) ∧
  get_prop (step plain_to_string (install_catch empty_string_steps) 200
              fresh_store fresh_record []).1 fresh_record "state"
  = get_prop (stamped 200 fresh_store fresh_record) fresh_record "state".
Proof.
  apply (step_empty_string_no_reassignment plain_to_string
           (install_catch empty_string_steps) 200 fresh_store fresh_record []
           (stamped 200 fresh_store fresh_record)); vm_compute; reflexivity.
Defined.

Lemma step_string_transition_witness :
  step plain_to_string test_steps 200 fresh_store fresh_record []
  = (set_prop (stamped 200 fresh_store fresh_record) fresh_record "state" (VStr "Middle"),
     Return fresh_record) ∧
  get_prop (step plain_to_string test_steps 200 fresh_store fresh_record []).1
    fresh_record "state" = VStr "Middle".
Proof.
  apply (step_string_transition plain_to_string test_steps 200 fresh_store
           1%positive "Start" (returns (VStr "Middle")) []
           (stamped 200 fresh_store fresh_record) "Middle").
  - vm_compute. reflexivity.
  - vm_compute. reflexivity.
  - vm_compute. reflexivity.
  - vm_compute. reflexivity.
  - reflexivity.
  - discriminate.
  - vm_compute. eexists. reflexivity.
Defined.

Lemma step_handler_throw_caught_witness :
  get_prop (step plain_to_string test_steps 200 (record_in "Error") fresh_record []).1
    fresh_record "state" = VStr "End".
Proof.
  destruct (step_handler_throw_caught plain_to_string test_steps 200
              (record_in "Error") 1%positive "Error" (throws_error "error")
              (returns (VStr "End")) []
              (throws_error "error" (stamped 200 (record_in "Error") fresh_record)
                 [fresh_record]).1
              (VRef 4%positive)) as [_ Hcaught].
  - vm_compute. reflexivity.
  - vm_compute. reflexivity.
  - vm_compute. reflexivity.
  - vm_compute. reflexivity.
  - vm_compute. reflexivity.
  - vm_compute. reflexivity.
  - eapply Hcaught.
    + reflexivity.
    + discriminate.
    + vm_compute. eexists. reflexivity.
Defined.

Lemma step_default_catch_rethrows_witness :
  ∃ stepper,
    makeStepper plain_to_string (Some uncaught_steps) = inr stepper ∧
    stepper 200%Z (record_in "Error") fresh_record []
    = ((throws_error "error" (stamped 200 (record_in "Error") fresh_record)
          [fresh_record]).1, Throw (VRef 4%positive)).
Proof.
  eapply proj2.
  apply (step_default_catch_rethrows plain_to_string uncaught_steps 200
           (record_in "Error") 1%positive "Error" (throws_error "error") []);
    vm_compute; reflexivity.
Defined.



Lemma step_archives_snapshot_witness :
  history_head
    (step plain_to_string test_steps 200 fresh_store fresh_record []).1 fresh_record
  = Some (snapshot (VStr "Start") (VNum 100)) ∧
  history_length
    (step plain_to_string test_steps 200 fresh_store fresh_record []).1 fresh_record
  = Some 1.
Proof.
  apply (step_archives_snapshot plain_to_string test_steps 200 fresh_store
           1%positive []
           (step plain_to_string test_steps 200 fresh_store fresh_record []).1
           fresh_record).
  - vm_compute. eexists. reflexivity.
  - vm_compute. reflexivity.
  - vm_compute. reflexivity.
  - vm_compute. reflexivity.
  - split; vm_compute; reflexivity.
Defined.

(** The repository's test: from a fresh record the loop ends in state
    ["End"], done. *)
Example test_run :
  ∃ h, run plain_to_string 4 (install_catch test_steps) 200 fresh_store fresh_record
       = Some (h, Return fresh_record) ∧
       get_prop h fresh_record "state" = VStr "End" ∧
       get_prop h fresh_record "done" = VBool true ∧
       history_length h fresh_record = Some 4.
Proof. eexists. split; [reflexivity|]. vm_compute. done. Qed.

(** ** Where the code departs from the specification *)

(** C1 as stated fails: the handler [data => { data.history = [] }] makes
    the step succeed with a history that is empty afterwards, as it was
    before; [history[0]] does not exist. *)
Lemma step_history_cleared_by_handler :
  truthy (get_prop fresh_store fresh_record "done") = false ∧
  history_length fresh_store fresh_record = Some 0 ∧
  (step plain_to_string (install_catch clearing_steps) 200 fresh_store
     fresh_record []).2 = Return fresh_record ∧
  history_length
    (step plain_to_string (install_catch clearing_steps) 200 fresh_store
       fresh_record []).1 fresh_record = Some 0 ∧
  history_head
    (step plain_to_string (install_catch clearing_steps) 200 fresh_store
       fresh_record []).1 fresh_record = None.
Proof. vm_compute. done. Qed.

(** C5 as stated fails: the handler [() => ''] returns a string, the step
    succeeds, and [record.state] is still ["Start"], not that string. *)
Lemma step_empty_string_not_assigned :
  truthy (get_prop fresh_store fresh_record "done") = false ∧
  returns (VStr "") (stamped 200 fresh_store fresh_record) [fresh_record]
  = (stamped 200 fresh_store fresh_record, Return (VStr "")) ∧
  (step plain_to_string (install_catch empty_string_steps) 200 fresh_store
     fresh_record []).2 = Return fresh_record ∧
  get_prop
    (step plain_to_string (install_catch empty_string_steps) 200 fresh_store
       fresh_record []).1 fresh_record "state" = VStr "Start" ∧
  get_prop
    (step plain_to_string (install_catch empty_string_steps) 200 fresh_store
       fresh_record []).1 fresh_record "state" ≠ VStr "".
Proof. vm_compute. done. Qed.

(** C4 as stated fails: the handler throws, the catch handler [() => '']
    returns a string, the step succeeds, and [record.state] is still
    ["Start"], not that string. *)
Lemma step_catch_empty_string_not_assigned :
  truthy (get_prop fresh_store fresh_record "done") = false ∧
  (throws_error "error" (stamped 200 fresh_store fresh_record) [fresh_record]).2
  = Throw (VRef 4%positive) ∧
  empty_catch_steps !! "catch" = Some (EFun (returns (VStr ""))) ∧
  (step plain_to_string (install_catch empty_catch_steps) 200 fresh_store
     fresh_record []).2 = Return fresh_record ∧
  get_prop
    (step plain_to_string (install_catch empty_catch_steps) 200 fresh_store
       fresh_record []).1 fresh_record "state" = VStr "Start" ∧
  get_prop
    (step plain_to_string (install_catch empty_catch_steps) 200 fresh_store
       fresh_record []).1 fresh_record "state" ≠ VStr "".
Proof. vm_compute. done. Qed.


(** ** The further properties at work on the sample handlers *)

Lemma step_returns_same_record_witness : fresh_record = fresh_record.
Proof.
  apply (step_returns_same_record plain_to_string test_steps 200 fresh_store
           fresh_record []
           (step plain_to_string test_steps 200 fresh_store fresh_record []).1
           fresh_record).
  vm_compute. reflexivity.
Defined.

Lemma step_no_reassignment_witness :
  step plain_to_string test_steps 200 (record_in "End") fresh_record []
  = ((try_catch plain_to_string test_steps 200 (record_in "End") fresh_record []).1,
     Return fresh_record).
Proof.
  apply (step_no_reassignment plain_to_string test_steps 200 (record_in "End")
           fresh_record [] _ VUndef).
  - vm_compute. reflexivity.
  - vm_compute. reflexivity.
  - vm_compute. reflexivity.
  - vm_compute. reflexivity.
  - right. reflexivity.
Defined.

Lemma step_catch_throw_propagates_witness :
  step plain_to_string (install_catch uncaught_steps) 200 (record_in "Error")
    fresh_record []
  = ((throws_error "error" (stamped 200 (record_in "Error") fresh_record)
        [fresh_record]).1, Throw (VRef 4%positive)).
Proof.
  apply (step_catch_throw_propagates plain_to_string (install_catch uncaught_steps)
           200 (record_in "Error") 1%positive "Error" (throws_error "error") []
           (throws_error "error" (stamped 200 (record_in "Error") fresh_record)
              [fresh_record]).1 (VRef 4%positive));
    vm_compute; reflexivity.
Defined.

Lemma step_throw_origin_witness :
  VAssertionError bad_return
  = VAssertionError "Handling state requires a state object" ∨
  VAssertionError bad_return
  = VAssertionError
      ("Invalid state trasition: "
       +:+ to_string plain_to_string fresh_store
             (get_prop fresh_store fresh_record "state")) ∨
  VAssertionError bad_return = VAssertionError bad_return ∨
  ∃ h1 e0,
    attempt plain_to_string (install_catch number_steps) 200 fresh_store
      fresh_record [] = (h1, Throw e0) ∧
    call (install_catch number_steps) "catch" h1 (e0 :: fresh_record :: [])
    = (stamped 200 fresh_store fresh_record, Throw (VAssertionError bad_return)).
Proof.
  apply (step_throw_origin plain_to_string (install_catch number_steps) 200
           fresh_store fresh_record [] (stamped 200 fresh_store fresh_record)
           (VAssertionError bad_return)).
  vm_compute. reflexivity.
Defined.

Lemma step_state_assignment_witness :
  get_prop (step plain_to_string test_steps 200 fresh_store fresh_record []).1
    fresh_record "state"
  = get_prop (try_catch plain_to_string test_steps 200 fresh_store fresh_record []).1
      fresh_record "state" ∨
  ∃ S, S ≠ "" ∧
    (try_catch plain_to_string test_steps 200 fresh_store fresh_record []).2
    = Return (VStr S) ∧
    get_prop (step plain_to_string test_steps 200 fresh_store fresh_record []).1
      fresh_record "state" = VStr S.
Proof.
  apply (step_state_assignment plain_to_string test_steps 200 fresh_store
           fresh_record []); vm_compute; reflexivity.
Defined.

Lemma stamped_frame_witness :
  is_Some (stamped 200 (State 100 caller_store VUndef).1 (VRef 3%positive)
             !! 1%positive) ∧
  (1%positive ≠ 3%positive →
   get_prop (State 100 caller_store VUndef).1 (VRef 3%positive) "history"
   ≠ VRef 1%positive →
   stamped 200 (State 100 caller_store VUndef).1 (VRef 3%positive) !! 1%positive
   = (State 100 caller_store VUndef).1 !! 1%positive).
Proof.
  apply (stamped_frame 200 (State 100 caller_store VUndef).1 3%positive 1%positive);
    vm_compute; eexists; reflexivity.
Defined.

Lemma step_field_frame_witness :
  (∀ k, k ≠ "history" → k ≠ "updated" →
        get_prop (stamped 200 fresh_store fresh_record) fresh_record k
        = get_prop fresh_store fresh_record k) ∧
  (∀ k, k ≠ "state" →
        get_prop (step plain_to_string test_steps 200 fresh_store fresh_record []).1
          fresh_record k
        = get_prop
            (try_catch plain_to_string test_steps 200 fresh_store fresh_record []).1
            fresh_record k).
Proof.
  apply (step_field_frame plain_to_string test_steps 200 fresh_store 1%positive []).
  - vm_compute. eexists. reflexivity.
  - vm_compute. reflexivity.
  - vm_compute. reflexivity.
Defined.

Lemma stamped_prepends_witness :
  ∃ s,
    fresh_store !! s = None ∧
    history (stamped 200 fresh_store fresh_record) fresh_record
    = Some (VRef s :: default [] (history fresh_store fresh_record)) ∧
    stamped 200 fresh_store fresh_record !! s
    = Some (snapshot (get_prop fresh_store fresh_record "state")
              (get_prop fresh_store fresh_record "updated")).
Proof.
  apply (stamped_prepends 200 fresh_store 1%positive).
  - vm_compute. eexists. reflexivity.
  - vm_compute. reflexivity.
Defined.

Lemma stamped_keeps_older_entries_witness :
  history_objects
    (stamped 300 (step plain_to_string test_steps 200 fresh_store fresh_record []).1
       fresh_record) fresh_record
  = Some [Some (snapshot (VStr "Middle") (VNum 200));
          Some (snapshot (VStr "Start") (VNum 100))].
Proof.
  eapply eq_trans.
  - eapply proj1.
    apply (stamped_keeps_older_entries 300
             (step plain_to_string test_steps 200 fresh_store fresh_record []).1
             1%positive).
    + vm_compute. eexists. reflexivity.
    + vm_compute. reflexivity.
    + vm_compute. reflexivity.
  - vm_compute. reflexivity.
Defined.


Lemma step_history_not_an_array_witness :
  attempt plain_to_string test_steps 200 broken_store fresh_record []
  = (broken_store, Throw VTypeError) ∧
  step plain_to_string test_steps 200 broken_store fresh_record []
  = settle fresh_record
      (call test_steps "catch" broken_store (VTypeError :: fresh_record :: [])).
Proof.
  apply (step_history_not_an_array plain_to_string test_steps 200 broken_store
           fresh_record []); vm_compute; reflexivity.
Defined.

Lemma step_handler_not_a_function_witness :
  step plain_to_string not_a_function_steps 200 fresh_store fresh_record []
  = settle fresh_record
      (call not_a_function_steps "catch" (stamped 200 fresh_store fresh_record)
         (VTypeError :: fresh_record :: [])).
Proof.
  apply (step_handler_not_a_function plain_to_string not_a_function_steps 200
           fresh_store 1%positive "Start" (VNum 5) []); vm_compute; reflexivity.
Defined.

Lemma step_catch_not_a_function_witness :
  install_catch bad_catch_steps = bad_catch_steps ∧
  step plain_to_string (install_catch bad_catch_steps) 200 fresh_store
    fresh_record []
  = ((throws_error "error" (stamped 200 fresh_store fresh_record)
        [fresh_record]).1, Throw VTypeError).
Proof.
  apply (step_catch_not_a_function plain_to_string bad_catch_steps 200 fresh_store
           1%positive "Start" (throws_error "error") (VBool false) []
           (throws_error "error" (stamped 200 fresh_store fresh_record)
              [fresh_record]).1 (VRef 4%positive));
    vm_compute; reflexivity.
Defined.

Lemma step_truthy_done_witness :
  step plain_to_string test_steps 200
    (set_prop (record_in "Nowhere") fresh_record "done" (VStr "yes"))
    fresh_record []
  = (set_prop (record_in "Nowhere") fresh_record "done" (VStr "yes"),
     Return fresh_record).
Proof.
  apply (step_truthy_done plain_to_string test_steps 200
           (set_prop (record_in "Nowhere") fresh_record "done" (VStr "yes"))
           fresh_record []).
  vm_compute. reflexivity.
Defined.



Lemma State_histories_not_shared_witness :
  history_length
    (stamped 300 (State 200 (State 100 ∅ VUndef).1 VUndef).1 (State 100 ∅ VUndef).2)
    (State 100 ∅ VUndef).2 = Some 1 ∧
  history_length
    (stamped 300 (State 200 (State 100 ∅ VUndef).1 VUndef).1 (State 100 ∅ VUndef).2)
    (State 200 (State 100 ∅ VUndef).1 VUndef).2 = Some 0.
Proof.
  eapply proj2, proj2.
  apply (State_histories_not_shared 100 200 300 ∅ VUndef VUndef);
    vm_compute; reflexivity.
Defined.

Lemma State_shares_caller_history_witness :
  ∃ s, caller_store !! s = None ∧
       history
         (stamped 200 (State 100 caller_store (VRef 1%positive)).1
            (State 100 caller_store (VRef 1%positive)).2)
         (VRef 1%positive) = Some [VRef s].
Proof.
  eapply proj2, proj2.
  apply (State_shares_caller_history 100 200 caller_store 1%positive
           {[ "id" := VStr "tx1"; "history" := VRef 2%positive ]} 2%positive ∅ []);
    vm_compute; reflexivity.
Defined.
